(** * monitor_adoption.py: repository enumeration and workflow detection

    A shallow embedding of [monitor_adoption.py].  The script talks to the
    GitHub REST API through [requests.get], prints to standard output, may
    stop through [sys.exit] and finally writes one HTML file.  All of this
    is threaded explicitly through a [world] value; exceptions are an
    [outcome] next to the normal result.

    What the script receives from outside is a parameter of the model:
    the command line, the process environment, the clock, and the remote
    API, a function from the request sent to the response received. *)

From Stdlib Require Import String Ascii DecimalString List ZArith Bool Lia.
Import ListNotations.
Local Open Scope string_scope.
Local Open Scope Z_scope.

(** ** Data *)

(** One [requests.get] call: the URL, the [headers=] dict and the
    [params=] dict (both in literal order). *)
Record request := mkRequest {
  url : string;
  headers : list (string * string);
  params : list (string * Z)
}.

(** A repository descriptor of a listing page.  The script reads two keys:
    [repo.get("language")], which is [None] for a JSON null and for an
    absent key alike, and [repo["name"]]. *)
Record repo := mkRepo {
  name : string;
  language : option string
}.

(** What the script looks at in a [requests.Response]: [resp.status_code]
    and, on listing pages, the decoded array [resp.json()].  Every request
    is taken to receive a response, and a listing body to decode to an
    array of descriptors, as the API documents it; a connection failure
    inside [requests.get] and a body that is not such an array are outside
    the model. *)
Record response := mkResponse {
  status_code : Z;
  json : list repo
}.

(** The exceptions the script itself raises: [raise_for_status] and
    [sys.exit].  What the libraries may raise besides (a connection
    failure, a body that does not decode, a key that is missing, a stream
    or a file that cannot be written) is outside the model: every
    statement below is about runs in which these calls succeed. *)
Inductive exn :=
| HTTPError (status : Z)
| SystemExit (code : Z).

(** Result of running a piece of the script.  [OutOfFuel] is only produced
    by the bound put on [while True]. *)
Inductive outcome (A : Type) :=
| Returns (a : A)
| Raises (e : exn)
| OutOfFuel.
Arguments Returns {A} a.
Arguments Raises {A} e.
Arguments OutOfFuel {A}.

(** Everything the script does to the outside: requests sent (oldest
    first), lines printed, files written. *)
Record world := mkWorld {
  requests : list request;
  stdout : list string;
  files : list (string * string)
}.

Definition M (A : Type) : Type := world -> outcome A * world.

Definition ret {A} (a : A) : M A := fun w => (Returns a, w).

Definition raise {A} (e : exn) : M A := fun w => (Raises e, w).

Definition out_of_fuel {A} : M A := fun w => (OutOfFuel, w).

Definition bind {A B} (m : M A) (k : A -> M B) : M B :=
  fun w =>
    match m w with
    | (Returns a, w') => k a w'
    | (Raises e, w') => (Raises e, w')
    | (OutOfFuel, w') => (OutOfFuel, w')
    end.

Notation "x <- m ;; k" := (bind m (fun x => k))
  (at level 61, m at next level, right associativity).
Notation "m ;;; k" := (bind m (fun _ => k))
  (at level 61, right associativity).

Definition sent (r : request) (w : world) : world :=
  mkWorld (requests w ++ [r]) (stdout w) (files w).

Definition printed (line : string) (w : world) : world :=
  mkWorld (requests w) (stdout w ++ [line]) (files w).

Definition written (path content : string) (w : world) : world :=
  mkWorld (requests w) (stdout w) (files w ++ [(path, content)]).

Definition print (line : string) : M unit :=
  fun w => (Returns tt, printed line w).

Definition write_file (path content : string) : M unit :=
  fun w => (Returns tt, written path content w).

Definition sys_exit {A} (code : Z) : M A := raise (SystemExit code).

(** Python truth value of [None] or a [str]. *)
Definition truthy (v : option string) : bool :=
  match v with
  | Some s => negb (String.eqb s EmptyString)
  | None => false
  end.

(** [x in xs] for strings, with [None] equal to no string. *)
Definition py_in (x : option string) (xs : list string) : bool :=
  match x with
  | Some s => existsb (String.eqb s) xs
  | None => false
  end.

Definition str_of_nat (n : nat) : string :=
  NilZero.string_of_uint (Nat.to_uint n).

Definition dquote : string := String (ascii_of_nat 34) EmptyString.
Definition newline : string := String (ascii_of_nat 10) EmptyString.

Definition GITHUB_API : string := "https://api.github.com".

(** ** The script *)

Section Script.

(** The remote API: the response each request receives. *)
Variable api : request -> response.

(** [datetime.utcnow().strftime("%Y-%m-%d %H:%M UTC")]. *)
Variable utcnow : string.

(** [requests.get(url, headers=..., params=...)]. *)
Definition requests_get (u : string) (hs : list (string * string))
    (ps : list (string * Z)) : M response :=
  fun w => let r := mkRequest u hs ps in (Returns (api r), sent r w).

(** [resp.raise_for_status()] of the requests library: an [HTTPError]
    for a client error (400..499) or a server error (500..599), nothing
    otherwise. *)
Definition raise_for_status (resp : response) : M unit :=
  if (400 <=? status_code resp) && (status_code resp <? 600)
  then raise (HTTPError (status_code resp))
  else ret tt.

Section Configured.

(** Module-level globals, set once by the configuration block. *)
Variable ORG : string.
Variable TOKEN : string.

Definition HEADERS : list (string * string) :=
  [ ("Authorization", "token " ++ TOKEN);
    ("Accept", "application/vnd.github.v3+json") ].

(** The inner [for repo in data] loop: append the name of each
    descriptor whose language is in the two-element list. *)
Definition collect (repos : list string) (data : list repo) : list string :=
  fold_left
    (fun repos r =>
       if py_in (language r) ["JavaScript"; "TypeScript"]
       then (repos ++ [name r])%list
       else repos)
    data repos.

(** How the [while True] loop of one endpoint is left without an
    exception: [break] (on 404) or [return repos] (on an empty page). *)
Inductive flow :=
| Break (repos : list string)
| Return (repos : list string).

(** The [while True] loop for one endpoint, from page [page] on, with
    [repos] collected so far.  [fuel] bounds the number of iterations. *)
Fixpoint paginate (fuel : nat) (endpoint : string) (page : Z)
    (repos : list string) : M flow :=
  match fuel with
  | O => out_of_fuel
  | S fuel' =>
      resp <- requests_get (GITHUB_API ++ "/" ++ endpoint) HEADERS
                [("per_page", 100); ("page", page)] ;;
      if status_code resp =? 404 then ret (Break repos)
      else
        raise_for_status resp ;;;
        let data := json resp in
        match data with
        | [] => ret (Return repos)
        | _ :: _ => paginate fuel' endpoint (page + 1) (collect repos data)
        end
  end.

(** The outer [for endpoint in (...)] loop and the final
    [return repos]. *)
Fixpoint for_endpoints (fuel : nat) (endpoints : list string)
    (repos : list string) : M (list string) :=
  match endpoints with
  | [] => ret repos
  | endpoint :: rest =>
      f <- paginate fuel endpoint 1 repos ;;
      match f with
      | Return repos' => ret repos'
      | Break repos' => for_endpoints fuel rest repos'
      end
  end.

Definition list_js_repos (fuel : nat) (org : string) : M (list string) :=
  for_endpoints fuel
    [ "orgs/" ++ org ++ "/repos"; "users/" ++ org ++ "/repos" ] [].

Definition check_workflow (repo : string) : M bool :=
  let path := ".github/workflows/deps-install.yml" in
  resp <- requests_get
            (GITHUB_API ++ "/repos/" ++ ORG ++ "/" ++ repo ++ "/contents/" ++ path)
            HEADERS [] ;;
  ret (status_code resp =? 200).

(** The first [for name in repos] loop of [main]. *)
Fixpoint check_all (repos : list string) (results : list (string * bool))
    : M (list (string * bool)) :=
  match repos with
  | [] => ret results
  | name :: rest =>
      has <- check_workflow name ;;
      let results := (results ++ [(name, has)])%list in
      let status := if has then "✓" else "✗" in
      print (status ++ " " ++ name) ;;;
      check_all rest results
  end.

Definition html_head (adopted total : nat) : string :=
  "<!DOCTYPE html>
<html lang=" ++ dquote ++ "en" ++ dquote ++ ">
<head>
  <meta charset=" ++ dquote ++ "UTF-8" ++ dquote ++ ">
  <title>Dependency Workflow Adoption Dashboard</title>
  <style>
    body { font-family: Arial,sans-serif; margin: 2rem; }
    table { border-collapse: collapse; width: 100%; }
    th,td { border: 1px solid #ddd; padding: 8px; }
    th { background: #f4f4f4; }
    .yes { color: green; } .no { color: red; }
  </style>
</head>
<body>
  <h1>Dependency Workflow Adoption for " ++ ORG ++ "</h1>
  <p>Generated: " ++ utcnow ++ "</p>
  <p>Adoption: " ++ str_of_nat adopted ++ "/" ++ str_of_nat total ++ " repositories</p>
  <table>
    <tr><th>Repository</th><th>Workflow Present?</th></tr>".

Definition html_row (row : string * bool) : string :=
  let (name, has) := row in
  let cls := if has then "yes" else "no" in
  let mark := if has then "✓" else "✗" in
  newline ++ "    <tr><td>" ++ name ++ "</td><td class=" ++ dquote ++ cls
    ++ dquote ++ ">" ++ mark ++ "</td></tr>".

Definition html_foot : string :=
  "
  </table>
</body>
</html>".

Definition main (fuel : nat) : M unit :=
  repos <- list_js_repos fuel ORG ;;
  let total := length repos in
  results <- check_all repos [] ;;
  let adopted := length (filter snd results) in
  let html := html_head adopted total in
  let html := fold_left (fun html row => html ++ html_row row) results html in
  let html := html ++ html_foot in
  write_file "adoption_dashboard.html" html ;;;
  print (newline ++ "Dashboard written to adoption_dashboard.html").

End Configured.

(** The script run as a program: the configuration block, then
    [main()] under [if __name__ == "__main__"]. *)
Definition program (argv : list string) (getenv : string -> option string)
    (fuel : nat) : M unit :=
  let ORG := if (1 <? length argv)%nat then nth_error argv 1 else None in
  if negb (truthy ORG) then
    print "Usage: python3 monitor_adoption.py <ORG_NAME>" ;;;
    sys_exit 1
  else
    let TOKEN := getenv "GITHUB_TOKEN" in
    if negb (truthy TOKEN) then
      print "Error: set GITHUB_TOKEN env var with repo scope" ;;;
      sys_exit 1
    else
      main (match ORG with Some s => s | None => EmptyString end)
           (match TOKEN with Some s => s | None => EmptyString end)
           fuel.

End Script.

(** ** Vocabulary of the statements *)

(** The two listing endpoints, as [list_js_repos] spells them. *)
Definition orgs_endpoint (org : string) : string := "orgs/" ++ org ++ "/repos".
Definition users_endpoint (org : string) : string := "users/" ++ org ++ "/repos".

(** The request of one iteration of the pagination loop. *)
Definition listing (TOKEN endpoint : string) (page : Z) : request :=
  mkRequest (GITHUB_API ++ "/" ++ endpoint) (HEADERS TOKEN)
            [("per_page", 100); ("page", page)].

(** The request of [check_workflow]. *)
Definition contents (ORG TOKEN repo : string) : request :=
  mkRequest
    (GITHUB_API ++ "/repos/" ++ ORG ++ "/" ++ repo
       ++ "/contents/.github/workflows/deps-install.yml")
    (HEADERS TOKEN) [].

(** The language filter and the names it lets through, in order. *)
Definition is_js (r : repo) : bool :=
  py_in (language r) ["JavaScript"; "TypeScript"].

Definition matching (data : list repo) : list string :=
  map name (filter is_js data).

(** The names a finished pagination loop hands on. *)
Definition flow_repos (f : flow) : list string :=
  match f with
  | Break repos => repos
  | Return repos => repos
  end.

(** A client or server error status other than 404: what
    [list_js_repos] lets [raise_for_status] turn into an exception. *)
Definition error_status (s : Z) : Prop := 400 <= s < 600 /\ s <> 404.

(** The world after the requests [rs] were sent, in this order. *)
Definition sent_all (rs : list request) (w : world) : world :=
  mkWorld (requests w ++ rs) (stdout w) (files w).

(** Requests for [n] consecutive pages of [endpoint] from page [start]. *)
Definition page_requests (TOKEN endpoint : string) (start : Z) (n : nat)
    : list request :=
  map (fun k => listing TOKEN endpoint (start + Z.of_nat k)) (seq 0 n).

Section Remote.

Variable api : request -> response.
Variable TOKEN : string.

(** From page [start] on, [endpoint] answers with the non-empty pages
    [pages], one after the other, each with status 200. *)
Definition serves (endpoint : string) (start : Z) (pages : list (list repo))
    : Prop :=
  forall k data,
    nth_error pages k = Some data ->
    status_code (api (listing TOKEN endpoint (start + Z.of_nat k))) = 200
    /\ json (api (listing TOKEN endpoint (start + Z.of_nat k))) = data
    /\ data <> [].

(** Page [page] of [endpoint] is an empty page with status 200. *)
Definition empty_page (endpoint : string) (page : Z) : Prop :=
  status_code (api (listing TOKEN endpoint page)) = 200
  /\ json (api (listing TOKEN endpoint page)) = [].

(** Page [page] of [endpoint] is answered with 404. *)
Definition not_found (endpoint : string) (page : Z) : Prop :=
  status_code (api (listing TOKEN endpoint page)) = 404.

(** The descriptors the loop reads from the responses to [rs]: the body
    of a 404 or of an error response is never decoded. *)
Definition read_pages (rs : list request) : list repo :=
  flat_map
    (fun r =>
       if (status_code (api r) =? 404)
          || ((400 <=? status_code (api r)) && (status_code (api r) <? 600))
       then []
       else json (api r))
    rs.

(** The request [r] was answered with an error status other than 404. *)
Definition failed (r : request) : Prop :=
  error_status (status_code (api r)).

(** Shape of the requests [rs] of a run with outcome [o]: a run that
    raises ends on the one failed request, whose status the exception
    carries; any other run has no failed request. *)
Definition aborts_last {A} (rs : list request) (o : outcome A) : Prop :=
  match o with
  | Raises e =>
      exists init r,
        rs = (init ++ [r])%list
        /\ Forall (fun r => ~ failed r) init
        /\ failed r
        /\ e = HTTPError (status_code (api r))
  | _ => Forall (fun r => ~ failed r) rs
  end.

End Remote.

(** ** Vocabulary of the report *)

(** What the checker answers for the repository [repo]. *)
Definition has_workflow (api : request -> response) (ORG TOKEN repo : string)
    : bool :=
  status_code (api (contents ORG TOKEN repo)) =? 200.

(** The (name, present) rows for the names [repos], in their order. *)
Definition checked (api : request -> response) (ORG TOKEN : string)
    (repos : list string) : list (string * bool) :=
  map (fun repo => (repo, has_workflow api ORG TOKEN repo)) repos.

(** The line printed for one row. *)
Definition check_line (row : string * bool) : string :=
  (if snd row then "✓" else "✗") ++ " " ++ fst row.

(** The table rows of the dashboard, one after the other. *)
Definition html_rows (results : list (string * bool)) : string :=
  fold_right (fun row rest => html_row row ++ rest) EmptyString results.

(** The last line [main] prints. *)
Definition written_line : string :=
  newline ++ "Dashboard written to adoption_dashboard.html".

(** The world [main] leaves when the enumeration returned [repos] in the
    world [w]: one contents request and one printed line per name, in
    order, then the dashboard written once and the last line printed. *)
Definition reported (api : request -> response) (utcnow ORG TOKEN : string)
    (repos : list string) (w : world) : world :=
  let results := checked api ORG TOKEN repos in
  mkWorld
    (requests w ++ map (contents ORG TOKEN) repos)
    (stdout w ++ map check_line results ++ [written_line])
    (files w
       ++ [("adoption_dashboard.html",
            html_head utcnow ORG (length (filter snd results)) (length repos)
              ++ html_rows results ++ html_foot)]).


(** ** Concrete remotes used in the examples *)

Definition w0 : world := mkWorld [] [] [].

(** Account "acme" of the end-to-end scenario: an organization with one
    page of two repositories; the workflow file exists in "a" only. *)
Definition acme_api (r : request) : response :=
  if String.eqb (url r) "https://api.github.com/orgs/acme/repos" then
    match params r with
    | [(_, _); (_, 1)] =>
        mkResponse 200 [mkRepo "a" (Some "JavaScript"); mkRepo "b" (Some "Python")]
    | _ => mkResponse 200 []
    end
  else if String.eqb (url r)
       "https://api.github.com/repos/acme/a/contents/.github/workflows/deps-install.yml"
  then mkResponse 200 []
  else mkResponse 404 [].

(** Account "octocat": not an organization; a user with two pages. *)
Definition octocat_api (r : request) : response :=
  if String.eqb (url r) "https://api.github.com/users/octocat/repos" then
    match params r with
    | [(_, _); (_, 1)] =>
        mkResponse 200 [mkRepo "web" (Some "TypeScript"); mkRepo "docs" None]
    | [(_, _); (_, 2)] =>
        mkResponse 200 [mkRepo "shell" (Some "javascript"); mkRepo "cli" (Some "JavaScript")]
    | _ => mkResponse 200 []
    end
  else mkResponse 404 [].

(** An account known to neither endpoint. *)
Definition nobody_api (r : request) : response := mkResponse 404 [].

(** Account "mixed": the organization listing serves one page and then
    answers 404; the user listing serves one page. *)
Definition mixed_api (r : request) : response :=
  if String.eqb (url r) "https://api.github.com/orgs/mixed/repos" then
    match params r with
    | [(_, _); (_, 1)] => mkResponse 200 [mkRepo "o1" (Some "JavaScript")]
    | _ => mkResponse 404 []
    end
  else if String.eqb (url r) "https://api.github.com/users/mixed/repos" then
    match params r with
    | [(_, _); (_, 1)] => mkResponse 200 [mkRepo "u1" (Some "TypeScript")]
    | _ => mkResponse 200 []
    end
  else mkResponse 404 [].

(** Account "big": an organization whose first page is full (100
    descriptors) and whose second page holds three. *)
Definition big_api (r : request) : response :=
  if String.eqb (url r) "https://api.github.com/orgs/big/repos" then
    match params r with
    | [(_, _); (_, 1)] => mkResponse 200 (repeat (mkRepo "r" (Some "JavaScript")) 100)
    | [(_, _); (_, 2)] => mkResponse 200 (repeat (mkRepo "s" (Some "Go")) 3)
    | _ => mkResponse 200 []
    end
  else mkResponse 404 [].

(** Account "twins": one organization page on which two descriptors
    carry the same name, with different languages. *)
Definition twins_api (r : request) : response :=
  if String.eqb (url r) "https://api.github.com/orgs/twins/repos" then
    match params r with
    | [(_, _); (_, 1)] =>
        mkResponse 200 [mkRepo "x" (Some "Python"); mkRepo "x" (Some "JavaScript")]
    | _ => mkResponse 200 []
    end
  else mkResponse 404 [].

(** A remote whose listings never run dry: every page holds one
    repository. *)
Definition endless_api (r : request) : response :=
  mkResponse 200 [mkRepo "r" (Some "JavaScript")].

(** A remote that answers every request with the status [s]. *)
Definition status_api (s : Z) (r : request) : response := mkResponse s [].

(** Discharges [serves] for a concrete remote and concrete pages. *)
Ltac served :=
  let k := fresh "k" in
  let data := fresh "data" in
  let H := fresh "H" in
  intros k data H;
  repeat (destruct k as [|k];
          [ injection H as <-; repeat split; (reflexivity || discriminate) | ]);
  destruct k; discriminate H.

Example acme_enumeration :
  list_js_repos acme_api "t" 5 "acme" w0
  = (Returns ["a"],
     sent_all [listing "t" (orgs_endpoint "acme") 1;
               listing "t" (orgs_endpoint "acme") 2] w0).
Proof. reflexivity. Qed.

Example octocat_enumeration :
  fst (list_js_repos octocat_api "t" 5 "octocat" w0) = Returns ["web"; "cli"].
Proof. reflexivity. Qed.

Example mixed_enumeration :
  fst (list_js_repos mixed_api "t" 5 "mixed" w0) = Returns ["o1"; "u1"].
Proof. reflexivity. Qed.

Example acme_report_ratio :
  exists html,
    files (snd (program acme_api "2024-01-01 00:00 UTC"
                  ["monitor_adoption.py"; "acme"]
                  (fun _ => Some "t") 5 w0))
    = [("adoption_dashboard.html", html)]
    /\ stdout (snd (program acme_api "2024-01-01 00:00 UTC"
                  ["monitor_adoption.py"; "acme"]
                  (fun _ => Some "t") 5 w0))
       = ["✓ a"; newline ++ "Dashboard written to adoption_dashboard.html"].
Proof. eexists. split; reflexivity. Qed.

(** ** General lemmas *)

Lemma collect_spec (repos : list string) (data : list repo) :
  collect repos data = (repos ++ matching data)%list.
Proof.
  unfold collect, matching, is_js.
  revert repos.
  induction data as [|r data IH]; intros repos; simpl.
  - now rewrite app_nil_r.
  - destruct (py_in (language r) _); rewrite IH; simpl.
    + now rewrite <- app_assoc.
    + reflexivity.
Qed.

Lemma matching_app (xs ys : list repo) :
  matching (xs ++ ys) = (matching xs ++ matching ys)%list.
Proof. unfold matching. now rewrite filter_app, map_app. Qed.

Lemma is_js_spec (r : repo) :
  is_js r = true <->
  language r = Some "JavaScript" \/ language r = Some "TypeScript".
Proof.
  unfold is_js, py_in.
  destruct (language r) as [l|]; simpl.
  - rewrite !orb_true_iff, !String.eqb_eq.
    split.
    + intros [H|[H|H]]; [left|right|discriminate]; congruence.
    + intros [H|H]; [left|right; left]; congruence.
  - split; [discriminate | intros [H|H]; discriminate].
Qed.

Lemma sent_all_nil (w : world) : sent_all [] w = w.
Proof. destruct w; unfold sent_all; simpl. now rewrite app_nil_r. Qed.

Lemma sent_all_sent (r : request) (rs : list request) (w : world) :
  sent_all rs (sent r w) = sent_all (r :: rs) w.
Proof. unfold sent_all, sent; simpl. now rewrite <- app_assoc. Qed.

Lemma sent_all_app (rs rs' : list request) (w : world) :
  sent_all rs' (sent_all rs w) = sent_all (rs ++ rs') w.
Proof. unfold sent_all; simpl. now rewrite app_assoc. Qed.

Lemma sent_is_sent_all (r : request) (w : world) : sent r w = sent_all [r] w.
Proof. reflexivity. Qed.

Lemma page_requests_S (TOKEN endpoint : string) (start : Z) (n : nat) :
  page_requests TOKEN endpoint start (S n)
  = listing TOKEN endpoint start :: page_requests TOKEN endpoint (start + 1) n.
Proof.
  unfold page_requests. simpl. rewrite Z.add_0_r. f_equal.
  rewrite <- seq_shift, map_map.
  apply map_ext. intros k. f_equal. lia.
Qed.

Lemma page_requests_snoc (TOKEN endpoint : string) (start : Z) (n : nat) :
  page_requests TOKEN endpoint start (S n)
  = (page_requests TOKEN endpoint start n
       ++ [listing TOKEN endpoint (start + Z.of_nat n)])%list.
Proof. unfold page_requests. now rewrite seq_S, map_app. Qed.

Lemma endpoints_differ (org : string) :
  GITHUB_API ++ "/" ++ orgs_endpoint org <> GITHUB_API ++ "/" ++ users_endpoint org.
Proof. unfold GITHUB_API, orgs_endpoint, users_endpoint. simpl. discriminate. Qed.

Lemma page_requests_url (TOKEN endpoint : string) (start : Z) (n : nat) :
  Forall (fun r => url r = GITHUB_API ++ "/" ++ endpoint)
         (page_requests TOKEN endpoint start n).
Proof. unfold page_requests. apply Forall_map, Forall_forall. reflexivity. Qed.

Section Loop.

Variable api : request -> response.
Variable TOKEN : string.

(** One iteration of the [while True] loop, case by case. *)
Lemma paginate_step (fuel : nat) (endpoint : string) (page : Z)
    (repos : list string) (w : world) :
  paginate api TOKEN (S fuel) endpoint page repos w =
  let r := listing TOKEN endpoint page in
  if status_code (api r) =? 404 then (Returns (Break repos), sent r w)
  else if (400 <=? status_code (api r)) && (status_code (api r) <? 600)
  then (Raises (HTTPError (status_code (api r))), sent r w)
  else match json (api r) with
       | [] => (Returns (Return repos), sent r w)
       | _ :: _ =>
           paginate api TOKEN fuel endpoint (page + 1)
                    (collect repos (json (api r))) (sent r w)
       end.
Proof.
  cbn [paginate]. unfold bind at 1, requests_get, listing. cbn zeta.
  set (r := mkRequest _ _ _).
  destruct (status_code (api r) =? 404); [reflexivity|].
  unfold bind, raise_for_status.
  destruct ((400 <=? status_code (api r)) && (status_code (api r) <? 600));
    [reflexivity|].
  unfold ret. destruct (json (api r)); reflexivity.
Qed.

Lemma paginate_not_found fuel endpoint page repos w :
  not_found api TOKEN endpoint page ->
  paginate api TOKEN (S fuel) endpoint page repos w
  = (Returns (Break repos), sent (listing TOKEN endpoint page) w).
Proof.
  unfold not_found. intros H. rewrite paginate_step. cbn zeta.
  now rewrite H.
Qed.

Lemma paginate_empty_page fuel endpoint page repos w :
  empty_page api TOKEN endpoint page ->
  paginate api TOKEN (S fuel) endpoint page repos w
  = (Returns (Return repos), sent (listing TOKEN endpoint page) w).
Proof.
  intros [Hs Hj]. rewrite paginate_step. cbn zeta.
  now rewrite Hs, Hj.
Qed.

Lemma paginate_http_error fuel endpoint page repos w :
  400 <= status_code (api (listing TOKEN endpoint page)) < 600 ->
  status_code (api (listing TOKEN endpoint page)) <> 404 ->
  paginate api TOKEN (S fuel) endpoint page repos w
  = (Raises (HTTPError (status_code (api (listing TOKEN endpoint page)))),
     sent (listing TOKEN endpoint page) w).
Proof.
  intros Hr Hn. rewrite paginate_step. cbn zeta.
  destruct (Z.eqb_spec (status_code (api (listing TOKEN endpoint page))) 404);
    [contradiction|].
  destruct (Z.leb_spec 400 (status_code (api (listing TOKEN endpoint page))));
    [|lia].
  destruct (Z.ltb_spec (status_code (api (listing TOKEN endpoint page))) 600);
    [reflexivity|lia].
Qed.

Lemma paginate_page fuel endpoint page repos w :
  status_code (api (listing TOKEN endpoint page)) = 200 ->
  json (api (listing TOKEN endpoint page)) <> [] ->
  paginate api TOKEN (S fuel) endpoint page repos w
  = paginate api TOKEN fuel endpoint (page + 1)
      (repos ++ matching (json (api (listing TOKEN endpoint page))))%list
      (sent (listing TOKEN endpoint page) w).
Proof.
  intros Hs Hj. rewrite paginate_step. cbn zeta. rewrite Hs. simpl.
  destruct (json (api (listing TOKEN endpoint page))) eqn:E;
    [contradiction|].
  now rewrite collect_spec.
Qed.

Lemma serves_tail endpoint start data pages :
  serves api TOKEN endpoint start (data :: pages) ->
  serves api TOKEN endpoint (start + 1) pages.
Proof.
  intros H k d Hk.
  replace (start + 1 + Z.of_nat k) with (start + Z.of_nat (S k)) by lia.
  now apply H.
Qed.

(** The loop walks through served pages, collecting the matching names. *)
Lemma paginate_serves (pages : list (list repo)) :
  forall fuel endpoint start repos w,
    serves api TOKEN endpoint start pages ->
    paginate api TOKEN (length pages + fuel) endpoint start repos w
    = paginate api TOKEN fuel endpoint (start + Z.of_nat (length pages))
        (repos ++ matching (concat pages))%list
        (sent_all (page_requests TOKEN endpoint start (length pages)) w).
Proof.
  induction pages as [|data pages IH]; intros fuel endpoint start repos w H.
  - simpl. now rewrite Z.add_0_r, app_nil_r, sent_all_nil.
  - destruct (H 0%nat data eq_refl) as (Hs & Hj & Hne).
    rewrite Z.add_0_r in Hs, Hj.
    cbn [length Nat.add].
    rewrite paginate_page by (rewrite ?Hj; assumption).
    rewrite Hj, (IH _ _ _ _ _ (serves_tail _ _ _ _ H)).
    rewrite sent_all_sent, <- page_requests_S.
    cbn [concat]. rewrite matching_app, app_assoc.
    f_equal. lia.
Qed.

Lemma list_js_repos_unfold fuel org w :
  list_js_repos api TOKEN fuel org w =
  match paginate api TOKEN fuel (orgs_endpoint org) 1 [] w with
  | (Returns (Return repos), w1) => (Returns repos, w1)
  | (Returns (Break repos), w1) =>
      match paginate api TOKEN fuel (users_endpoint org) 1 repos w1 with
      | (Returns (Return repos'), w2) => (Returns repos', w2)
      | (Returns (Break repos'), w2) => (Returns repos', w2)
      | (Raises e, w2) => (Raises e, w2)
      | (OutOfFuel, w2) => (OutOfFuel, w2)
      end
  | (Raises e, w1) => (Raises e, w1)
  | (OutOfFuel, w1) => (OutOfFuel, w1)
  end.
Proof.
  unfold list_js_repos, orgs_endpoint, users_endpoint.
  cbn [for_endpoints]. unfold bind, ret.
  destruct (paginate api TOKEN fuel _ 1 [] w) as [[[r|r]|e|] w1];
    try reflexivity.
  destruct (paginate api TOKEN fuel _ 1 r w1) as [[[r'|r']|e|] w2];
    reflexivity.
Qed.

(** The bound on [while True] is only a bound: a loop that ends within
    [fuel] iterations ends the same way under any larger bound. *)
Lemma paginate_more_fuel (fuel extra : nat) :
  forall endpoint page repos w,
    fst (paginate api TOKEN fuel endpoint page repos w) <> OutOfFuel ->
    paginate api TOKEN (fuel + extra) endpoint page repos w
    = paginate api TOKEN fuel endpoint page repos w.
Proof.
  induction fuel as [|fuel IH]; intros endpoint page repos w H.
  - now contradiction H.
  - change (S fuel + extra)%nat with (S (fuel + extra)).
    rewrite paginate_step in H. rewrite !paginate_step. cbn zeta in *.
    destruct (status_code (api (listing TOKEN endpoint page)) =? 404);
      [reflexivity|].
    destruct ((400 <=? status_code (api (listing TOKEN endpoint page)))
              && (status_code (api (listing TOKEN endpoint page)) <? 600));
      [reflexivity|].
    destruct (json (api (listing TOKEN endpoint page))); [reflexivity|].
    now apply IH.
Qed.

Lemma list_js_repos_more_fuel (fuel extra : nat) (org : string) (w : world) :
  fst (list_js_repos api TOKEN fuel org w) <> OutOfFuel ->
  list_js_repos api TOKEN (fuel + extra) org w
  = list_js_repos api TOKEN fuel org w.
Proof.
  rewrite !list_js_repos_unfold. intros H.
  assert (H1 : fst (paginate api TOKEN fuel (orgs_endpoint org) 1 [] w)
               <> OutOfFuel).
  { intros E. apply H.
    destruct (paginate api TOKEN fuel (orgs_endpoint org) 1 [] w)
      as [[[r|r]|e|] w1]; simpl in E; try discriminate. reflexivity. }
  rewrite (paginate_more_fuel fuel extra _ _ _ _ H1).
  destruct (paginate api TOKEN fuel (orgs_endpoint org) 1 [] w)
    as [[[r|r]|e|] w1]; try reflexivity.
  assert (H2 : fst (paginate api TOKEN fuel (users_endpoint org) 1 r w1)
               <> OutOfFuel).
  { intros E. apply H.
    destruct (paginate api TOKEN fuel (users_endpoint org) 1 r w1)
      as [[[r'|r']|e|] w2]; simpl in E; try discriminate. reflexivity. }
  now rewrite (paginate_more_fuel fuel extra _ _ _ _ H2).
Qed.

End Loop.

(** ** Every run of the enumerator, whatever the remote answers *)

Section Trace.

Variable api : request -> response.
Variable TOKEN : string.

Lemma read_pages_app (rs rs' : list request) :
  read_pages api (rs ++ rs') = (read_pages api rs ++ read_pages api rs')%list.
Proof. unfold read_pages. apply flat_map_app. Qed.

Lemma aborts_last_cons {A} (r : request) (rs : list request) (o : outcome A) :
  ~ failed api r -> aborts_last api rs o -> aborts_last api (r :: rs) o.
Proof.
  intros Hr. destruct o as [a|e|]; simpl.
  - now constructor.
  - intros (init & r0 & -> & Hi & H0 & ->).
    exists (r :: init), r0.
    split; [reflexivity|]. split; [now constructor|]. now split.
  - now constructor.
Qed.

Lemma aborts_last_app {A} (rs rs' : list request) (o : outcome A) :
  Forall (fun r => ~ failed api r) rs ->
  aborts_last api rs' o -> aborts_last api (rs ++ rs') o.
Proof.
  induction 1 as [|r rs Hr _ IH]; intros H; simpl; [assumption|].
  apply aborts_last_cons; auto.
Qed.

(** What one run of the pagination loop sends and hands on. *)
Lemma paginate_trace (fuel : nat) :
  forall endpoint page repos w,
  exists rs,
    snd (paginate api TOKEN fuel endpoint page repos w) = sent_all rs w
    /\ aborts_last api rs (fst (paginate api TOKEN fuel endpoint page repos w))
    /\ forall f,
         fst (paginate api TOKEN fuel endpoint page repos w) = Returns f ->
         flow_repos f = (repos ++ matching (read_pages api rs))%list.
Proof.
  induction fuel as [|fuel IH]; intros endpoint page repos w.
  - exists []. simpl. rewrite sent_all_nil.
    split; [reflexivity|]. split; [constructor | discriminate].
  - rewrite paginate_step. cbn zeta.
    set (r := listing TOKEN endpoint page).
    destruct (Z.eqb_spec (status_code (api r)) 404) as [E|E].
    { exists [r]. simpl. split; [reflexivity|]. split.
      - constructor; [|constructor]. unfold failed, error_status. tauto.
      - intros f [= <-]. unfold read_pages. simpl.
        rewrite E. simpl. now rewrite app_nil_r. }
    destruct ((400 <=? status_code (api r)) && (status_code (api r) <? 600))
      eqn:Err.
    { exists [r]. simpl. split; [reflexivity|]. split; [|discriminate].
      exists [], r.
      split; [reflexivity|]. split; [constructor|]. split; [|reflexivity].
      apply andb_true_iff in Err. destruct Err as [H1 H2].
      apply Z.leb_le in H1. apply Z.ltb_lt in H2.
      unfold failed, error_status. lia. }
    assert (Hok : ~ failed api r).
    { unfold failed, error_status. intros [[H1 H2] _].
      apply Z.leb_le in H1. apply Z.ltb_lt in H2.
      rewrite H1, H2 in Err. discriminate. }
    assert (Hread : read_pages api [r] = json (api r)).
    { unfold read_pages. simpl. rewrite Err.
      destruct (Z.eqb_spec (status_code (api r)) 404); [contradiction|].
      simpl. now rewrite app_nil_r. }
    destruct (json (api r)) as [|d data] eqn:Ej.
    { exists [r]. cbn [fst snd]. split; [reflexivity|]. split.
      - simpl. now constructor.
      - intros f [= <-]. rewrite Hread. simpl. now rewrite app_nil_r. }
    destruct (IH endpoint (page + 1) (collect repos (d :: data)) (sent r w))
      as (rs & Hw & Ha & Hf).
    exists (r :: rs). split; [|split].
    + now rewrite Hw, sent_all_sent.
    + now apply aborts_last_cons.
    + intros f Hret. rewrite (Hf f Hret), collect_spec.
      change (r :: rs) with ([r] ++ rs)%list.
      now rewrite read_pages_app, Hread, matching_app, app_assoc.
Qed.

(** What one run of [list_js_repos] sends and returns. *)
Lemma list_js_repos_trace (fuel : nat) (org : string) (w : world) :
  exists rs,
    snd (list_js_repos api TOKEN fuel org w) = sent_all rs w
    /\ aborts_last api rs (fst (list_js_repos api TOKEN fuel org w))
    /\ forall out,
         fst (list_js_repos api TOKEN fuel org w) = Returns out ->
         out = matching (read_pages api rs).
Proof.
  rewrite list_js_repos_unfold.
  destruct (paginate_trace fuel (orgs_endpoint org) 1 [] w)
    as (rs1 & Hw1 & Ha1 & Hf1).
  destruct (paginate api TOKEN fuel (orgs_endpoint org) 1 [] w)
    as [[[r1|r1]|e|] w1]; simpl in Hw1, Ha1, Hf1.
  - destruct (paginate_trace fuel (users_endpoint org) 1 r1 w1)
      as (rs2 & Hw2 & Ha2 & Hf2).
    subst w1.
    assert (Hr1 : r1 = matching (read_pages api rs1)) by apply (Hf1 _ eq_refl).
    exists (rs1 ++ rs2)%list.
    destruct (paginate api TOKEN fuel (users_endpoint org) 1 r1 (sent_all rs1 w))
      as [[[r2|r2]|e|] w2]; simpl in Hw2, Ha2, Hf2; simpl;
      rewrite Hw2, sent_all_app; (split; [reflexivity|]); split.
    + now apply (aborts_last_app rs1 rs2 (Returns r2)).
    + intros out [= <-]. rewrite read_pages_app, matching_app, <- Hr1.
      apply (Hf2 _ eq_refl).
    + now apply (aborts_last_app rs1 rs2 (Returns r2)).
    + intros out [= <-]. rewrite read_pages_app, matching_app, <- Hr1.
      apply (Hf2 _ eq_refl).
    + now apply (aborts_last_app rs1 rs2 (@Raises flow e)).
    + discriminate.
    + now apply (aborts_last_app rs1 rs2 (@OutOfFuel flow)).
    + discriminate.
  - exists rs1. simpl. split; [assumption|]. split; [assumption|].
    intros out [= <-]. apply (Hf1 _ eq_refl).
  - exists rs1. simpl. split; [assumption|]. split; [assumption|discriminate].
  - exists rs1. simpl. split; [assumption|]. split; [assumption|discriminate].
Qed.

End Trace.

Lemma paginate_first_request (api : request -> response) (TOKEN : string)
    (fuel : nat) (endpoint : string) (page : Z) (repos : list string)
    (w : world) :
  exists rest,
    requests (snd (paginate api TOKEN (S fuel) endpoint page repos w))
    = (requests w ++ listing TOKEN endpoint page :: rest)%list.
Proof.
  rewrite paginate_step. cbn zeta.
  set (r := listing TOKEN endpoint page).
  destruct (status_code (api r) =? 404); [now exists []|].
  destruct ((400 <=? status_code (api r)) && (status_code (api r) <? 600));
    [now exists []|].
  destruct (json (api r)) as [|d data]; [now exists []|].
  destruct (paginate_trace api TOKEN fuel endpoint (page + 1)
              (collect repos (d :: data)) (sent r w)) as (rs & Hw & _).
  exists rs. rewrite Hw. simpl. now rewrite <- app_assoc.
Qed.

Section Enumerator.

Variable api : request -> response.
Variable TOKEN : string.

(** Served pages followed by an empty page: the loop returns. *)
Lemma paginate_until_empty pages fuel endpoint start repos w :
  serves api TOKEN endpoint start pages ->
  empty_page api TOKEN endpoint (start + Z.of_nat (length pages)) ->
  (length pages < fuel)%nat ->
  paginate api TOKEN fuel endpoint start repos w
  = (Returns (Return (repos ++ matching (concat pages))%list),
     sent_all (page_requests TOKEN endpoint start (S (length pages))) w).
Proof.
  intros Hp He Hf.
  replace fuel with (length pages + S (fuel - S (length pages)))%nat by lia.
  rewrite (paginate_serves api TOKEN pages _ _ _ _ _ Hp).
  rewrite (paginate_empty_page api TOKEN _ _ _ _ _ He).
  now rewrite sent_is_sent_all, sent_all_app, <- page_requests_snoc.
Qed.

(** Served pages followed by a 404: the loop breaks. *)
Lemma paginate_until_not_found pages fuel endpoint start repos w :
  serves api TOKEN endpoint start pages ->
  not_found api TOKEN endpoint (start + Z.of_nat (length pages)) ->
  (length pages < fuel)%nat ->
  paginate api TOKEN fuel endpoint start repos w
  = (Returns (Break (repos ++ matching (concat pages))%list),
     sent_all (page_requests TOKEN endpoint start (S (length pages))) w).
Proof.
  intros Hp He Hf.
  replace fuel with (length pages + S (fuel - S (length pages)))%nat by lia.
  rewrite (paginate_serves api TOKEN pages _ _ _ _ _ Hp).
  rewrite (paginate_not_found api TOKEN _ _ _ _ _ He).
  now rewrite sent_is_sent_all, sent_all_app, <- page_requests_snoc.
Qed.

(** C1.  When the organization listing of an account answers with the
    non-empty pages [pages] (status 200) and then with an empty page
    (status 200), [list_js_repos] returns exactly the names of the
    descriptors of these pages whose language is "JavaScript" or
    "TypeScript", in the order the API gave them; the requests it sends
    are the [length pages + 1] page requests to the organization
    listing, none of them to the user listing. *)
Theorem org_pages_then_empty (org : string) (pages : list (list repo))
    (fuel : nat) (w : world) :
  serves api TOKEN (orgs_endpoint org) 1 pages ->
  empty_page api TOKEN (orgs_endpoint org) (1 + Z.of_nat (length pages)) ->
  (length pages < fuel)%nat ->
  let issued := page_requests TOKEN (orgs_endpoint org) 1 (S (length pages)) in
  list_js_repos api TOKEN fuel org w
  = (Returns (map name (filter is_js (concat pages))), sent_all issued w)
  /\ Forall (fun r => url r <> GITHUB_API ++ "/" ++ users_endpoint org) issued.
Proof.
  intros Hp He Hf issued. split.
  - rewrite list_js_repos_unfold.
    now rewrite (paginate_until_empty pages fuel _ 1 [] w Hp He Hf).
  - eapply Forall_impl; [|apply page_requests_url].
    intros r Hr. cbv beta in Hr. rewrite Hr. apply endpoints_differ.
Qed.

(** C4.  When the organization listing answers 404 on its first page,
    [list_js_repos] goes on to the user listing of the same identifier:
    its next request is page 1 of that listing.  It returns the
    matching-language names of the pages the user listing serves (up to
    its empty page, or up to a 404). *)
Theorem org_not_found_falls_to_user (org : string) (fuel : nat) (w : world) :
  not_found api TOKEN (orgs_endpoint org) 1 ->
  (0 < fuel)%nat ->
  (exists rest,
     requests (snd (list_js_repos api TOKEN fuel org w))
     = (requests w
          ++ [listing TOKEN (orgs_endpoint org) 1;
              listing TOKEN (users_endpoint org) 1]
          ++ rest)%list)
  /\ (forall pages,
        serves api TOKEN (users_endpoint org) 1 pages ->
        empty_page api TOKEN (users_endpoint org) (1 + Z.of_nat (length pages))
        \/ not_found api TOKEN (users_endpoint org) (1 + Z.of_nat (length pages)) ->
        (length pages < fuel)%nat ->
        list_js_repos api TOKEN fuel org w
        = (Returns (map name (filter is_js (concat pages))),
           sent_all (listing TOKEN (orgs_endpoint org) 1
                       :: page_requests TOKEN (users_endpoint org) 1
                            (S (length pages)))
                    w)).
Proof.
  intros Ho Hfuel.
  destruct fuel as [|fuel]; [lia|].
  split.
  - rewrite list_js_repos_unfold.
    rewrite (paginate_not_found api TOKEN _ _ _ _ _ Ho).
    destruct (paginate_first_request api TOKEN fuel (users_endpoint org) 1 []
                (sent (listing TOKEN (orgs_endpoint org) 1) w))
      as (rest & Hrest).
    exists rest.
    destruct (paginate api TOKEN (S fuel) (users_endpoint org) 1 []
                (sent (listing TOKEN (orgs_endpoint org) 1) w))
      as [[[r|r]|e|] w2]; simpl in Hrest |- *; rewrite Hrest;
      now rewrite <- app_assoc.
  - intros pages Hp He Hf.
    rewrite list_js_repos_unfold.
    rewrite (paginate_not_found api TOKEN _ _ _ _ _ Ho).
    destruct He as [He|He].
    + rewrite (paginate_until_empty pages _ _ 1 [] _ Hp He Hf).
      now rewrite sent_all_sent.
    + rewrite (paginate_until_not_found pages _ _ 1 [] _ Hp He Hf).
      now rewrite sent_all_sent.
Qed.

(** C5.  When both listings answer 404 on their first page,
    [list_js_repos] returns the empty list: no exception is raised. *)
Theorem both_not_found_is_empty (org : string) (fuel : nat) (w : world) :
  not_found api TOKEN (orgs_endpoint org) 1 ->
  not_found api TOKEN (users_endpoint org) 1 ->
  (0 < fuel)%nat ->
  list_js_repos api TOKEN fuel org w
  = (Returns [],
     sent_all [listing TOKEN (orgs_endpoint org) 1;
               listing TOKEN (users_endpoint org) 1] w).
Proof.
  intros Ho Hu Hf.
  rewrite list_js_repos_unfold.
  destruct fuel as [|fuel]; [lia|].
  rewrite (paginate_not_found api TOKEN _ _ _ _ _ Ho).
  rewrite (paginate_not_found api TOKEN _ _ _ _ _ Hu).
  now rewrite sent_is_sent_all, sent_all_sent.
Qed.

(** C10.  When the organization listing serves one or more non-empty
    pages and then answers 404, [list_js_repos] does not stop: its next
    request is page 1 of the user listing, and the names collected from
    the organization pages are kept: the result is these names followed
    by the matching names of the pages the user listing serves. *)
Theorem org_late_not_found_continues (org : string)
    (opages : list (list repo)) (fuel : nat) (w : world) :
  opages <> [] ->
  serves api TOKEN (orgs_endpoint org) 1 opages ->
  not_found api TOKEN (orgs_endpoint org) (1 + Z.of_nat (length opages)) ->
  (length opages < fuel)%nat ->
  (exists rest,
     requests (snd (list_js_repos api TOKEN fuel org w))
     = (requests w
          ++ page_requests TOKEN (orgs_endpoint org) 1 (S (length opages))
          ++ [listing TOKEN (users_endpoint org) 1]
          ++ rest)%list)
  /\ (forall upages,
        serves api TOKEN (users_endpoint org) 1 upages ->
        empty_page api TOKEN (users_endpoint org) (1 + Z.of_nat (length upages))
        \/ not_found api TOKEN (users_endpoint org) (1 + Z.of_nat (length upages)) ->
        (length upages < fuel)%nat ->
        list_js_repos api TOKEN fuel org w
        = (Returns (map name (filter is_js (concat opages))
                      ++ map name (filter is_js (concat upages)))%list,
           sent_all (page_requests TOKEN (orgs_endpoint org) 1 (S (length opages))
                       ++ page_requests TOKEN (users_endpoint org) 1
                            (S (length upages)))
                    w)).
Proof.
  intros _ Hop Ho Hfo.
  split.
  - rewrite list_js_repos_unfold.
    rewrite (paginate_until_not_found opages _ _ 1 [] _ Hop Ho Hfo).
    destruct fuel as [|fuel]; [lia|].
    set (w1 := sent_all _ w).
    destruct (paginate_first_request api TOKEN fuel (users_endpoint org) 1
                ([] ++ matching (concat opages))%list w1) as (rest & Hrest).
    exists rest.
    destruct (paginate api TOKEN (S fuel) (users_endpoint org) 1 _ w1)
      as [[[r|r]|e|] w2]; simpl in Hrest |- *; rewrite Hrest;
      now rewrite <- app_assoc.
  - intros upages Hup Hu Hfu.
    rewrite list_js_repos_unfold.
    rewrite (paginate_until_not_found opages _ _ 1 [] _ Hop Ho Hfo).
    destruct Hu as [Hu|Hu].
    + rewrite (paginate_until_empty upages _ _ 1 _ _ Hup Hu Hfu).
      now rewrite sent_all_app.
    + rewrite (paginate_until_not_found upages _ _ 1 _ _ Hup Hu Hfu).
      now rewrite sent_all_app.
Qed.

End Enumerator.

(** ** The enumeration theorems on concrete accounts *)

Lemma org_pages_then_empty_acme :
  list_js_repos acme_api "t" 5 "acme" w0
  = (Returns ["a"],
     sent_all [listing "t" (orgs_endpoint "acme") 1;
               listing "t" (orgs_endpoint "acme") 2] w0)
  /\ Forall (fun r => url r <> GITHUB_API ++ "/" ++ users_endpoint "acme")
            [listing "t" (orgs_endpoint "acme") 1;
             listing "t" (orgs_endpoint "acme") 2].
Proof.
  apply (org_pages_then_empty acme_api "t" "acme"
           [[mkRepo "a" (Some "JavaScript"); mkRepo "b" (Some "Python")]] 5 w0).
  - served.
  - split; reflexivity.
  - simpl; lia.
Defined.

Lemma org_not_found_falls_to_user_octocat :
  list_js_repos octocat_api "t" 5 "octocat" w0
  = (Returns ["web"; "cli"],
     sent_all [listing "t" (orgs_endpoint "octocat") 1;
               listing "t" (users_endpoint "octocat") 1;
               listing "t" (users_endpoint "octocat") 2;
               listing "t" (users_endpoint "octocat") 3] w0).
Proof.
  apply (proj2 (org_not_found_falls_to_user octocat_api "t" "octocat" 5 w0
                  eq_refl ltac:(lia))
           [[mkRepo "web" (Some "TypeScript"); mkRepo "docs" None];
            [mkRepo "shell" (Some "javascript"); mkRepo "cli" (Some "JavaScript")]]).
  - served.
  - left; split; reflexivity.
  - simpl; lia.
Defined.

Lemma both_not_found_is_empty_nobody :
  list_js_repos nobody_api "t" 1 "nobody" w0
  = (Returns [],
     sent_all [listing "t" (orgs_endpoint "nobody") 1;
               listing "t" (users_endpoint "nobody") 1] w0).
Proof.
  apply (both_not_found_is_empty nobody_api "t" "nobody" 1 w0).
  - reflexivity.
  - reflexivity.
  - lia.
Defined.

Lemma org_late_not_found_continues_mixed :
  list_js_repos mixed_api "t" 3 "mixed" w0
  = (Returns ["o1"; "u1"],
     sent_all [listing "t" (orgs_endpoint "mixed") 1;
               listing "t" (orgs_endpoint "mixed") 2;
               listing "t" (users_endpoint "mixed") 1;
               listing "t" (users_endpoint "mixed") 2] w0).
Proof.
  assert (Hserved : serves mixed_api "t" (orgs_endpoint "mixed") 1
                      [[mkRepo "o1" (Some "JavaScript")]]) by served.
  apply (proj2 (org_late_not_found_continues mixed_api "t" "mixed"
                  [[mkRepo "o1" (Some "JavaScript")]] 3 w0
                  ltac:(discriminate) Hserved eq_refl ltac:(simpl; lia))
           [[mkRepo "u1" (Some "TypeScript")]]).
  - served.
  - left; split; reflexivity.
  - simpl; lia.
Defined.

(** ** The language filter *)

(** C6, as the code has it.  The names [list_js_repos] returns are
    exactly the names of the descriptors it read whose language is
    "JavaScript" or "TypeScript" (exact, case-sensitive comparison; a null
    or absent language is no match).  A descriptor with any other language
    is never among those whose names make up the output; its name is in
    the output only when another descriptor read in the same run carries
    the same name with language "JavaScript" or "TypeScript". *)
Theorem other_languages_never_listed (api : request -> response)
    (TOKEN org : string) (fuel : nat) (w w' : world) (out : list string) :
  list_js_repos api TOKEN fuel org w = (Returns out, w') ->
  exists rs,
    w' = sent_all rs w
    /\ out = map name (filter is_js (read_pages api rs))
    /\ (forall d,
          language d <> Some "JavaScript" -> language d <> Some "TypeScript" ->
          ~ In d (filter is_js (read_pages api rs)))
    /\ (forall d,
          language d <> Some "JavaScript" -> language d <> Some "TypeScript" ->
          In (name d) out ->
          exists d',
            In d' (read_pages api rs)
            /\ d' <> d
            /\ name d' = name d
            /\ (language d' = Some "JavaScript"
                \/ language d' = Some "TypeScript")).
Proof.
  intros Hrun.
  destruct (list_js_repos_trace api TOKEN fuel org w) as (rs & Hw & _ & Hout).
  rewrite Hrun in Hw, Hout. simpl in Hw, Hout.
  specialize (Hout out eq_refl).
  exists rs. split; [assumption|]. split; [assumption|]. split.
  - intros d HJ HT Hin. apply filter_In in Hin. destruct Hin as [_ Hjs].
    apply is_js_spec in Hjs. tauto.
  - intros d HJ HT Hin. rewrite Hout in Hin.
    apply in_map_iff in Hin. destruct Hin as (d' & Hname & Hin).
    apply filter_In in Hin. destruct Hin as [Hread Hjs].
    apply is_js_spec in Hjs.
    exists d'. split; [assumption|]. split; [|split; assumption].
    intros ->. tauto.
Qed.

Lemma other_languages_never_listed_octocat :
  exists rs,
    sent_all [listing "t" (orgs_endpoint "octocat") 1;
              listing "t" (users_endpoint "octocat") 1;
              listing "t" (users_endpoint "octocat") 2;
              listing "t" (users_endpoint "octocat") 3] w0
    = sent_all rs w0
    /\ ["web"; "cli"] = map name (filter is_js (read_pages octocat_api rs))
    /\ (forall d,
          language d <> Some "JavaScript" -> language d <> Some "TypeScript" ->
          ~ In d (filter is_js (read_pages octocat_api rs)))
    /\ (forall d,
          language d <> Some "JavaScript" -> language d <> Some "TypeScript" ->
          In (name d) ["web"; "cli"] ->
          exists d',
            In d' (read_pages octocat_api rs)
            /\ d' <> d
            /\ name d' = name d
            /\ (language d' = Some "JavaScript"
                \/ language d' = Some "TypeScript")).
Proof.
  apply (other_languages_never_listed octocat_api "t" "octocat" 5 w0).
  reflexivity.
Defined.

(** C6 as stated fails: the descriptor named "x" with language "Python"
    is read, its language is neither of the two, and "x" is in the
    output, on account of the other descriptor of that name. *)
Lemma other_language_name_listed :
  In (mkRepo "x" (Some "Python"))
     (json (twins_api (listing "t" (orgs_endpoint "twins") 1)))
  /\ language (mkRepo "x" (Some "Python")) <> Some "JavaScript"
  /\ language (mkRepo "x" (Some "Python")) <> Some "TypeScript"
  /\ list_js_repos twins_api "t" 5 "twins" w0
     = (Returns ["x"],
        sent_all [listing "t" (orgs_endpoint "twins") 1;
                  listing "t" (orgs_endpoint "twins") 2] w0)
  /\ In (name (mkRepo "x" (Some "Python"))) ["x"].
Proof.
  split; [left; reflexivity|]. split; [discriminate|]. split; [discriminate|].
  split; [reflexivity|]. left; reflexivity.
Qed.

(** ** Pagination *)

(** C7.  A page with status 200 and content makes the loop request the
    next page of the same endpoint, whether it holds exactly 100 items or
    fewer; the loop stops after a page with status 200 exactly when that
    page is empty.  ([S (S fuel)]: the bound allows a second iteration.) *)
Theorem page_size_never_ends_pagination (api : request -> response)
    (TOKEN endpoint : string) (page : Z) (repos : list string)
    (fuel : nat) (w : world) :
  status_code (api (listing TOKEN endpoint page)) = 200 ->
  let data := json (api (listing TOKEN endpoint page)) in
  let after := paginate api TOKEN (S (S fuel)) endpoint page repos w in
  let next_page_requested :=
    exists rest,
      requests (snd after)
      = (requests w
           ++ [listing TOKEN endpoint page; listing TOKEN endpoint (page + 1)]
           ++ rest)%list in
  (length data = 100%nat -> next_page_requested)
  /\ ((0 < length data < 100)%nat -> next_page_requested)
  /\ (data <> [] -> next_page_requested)
  /\ (data <> [] ->
      after = paginate api TOKEN (S fuel) endpoint (page + 1)
                (repos ++ map name (filter is_js data))%list
                (sent (listing TOKEN endpoint page) w))
  /\ (data = [] ->
      after = (Returns (Return repos), sent (listing TOKEN endpoint page) w))
  /\ (requests (snd after) = (requests w ++ [listing TOKEN endpoint page])%list
      <-> data = []).
Proof.
  intros Hs data after next_page_requested.
  assert (Hgo : data <> [] ->
                after = paginate api TOKEN (S fuel) endpoint (page + 1)
                          (repos ++ matching data)%list
                          (sent (listing TOKEN endpoint page) w)).
  { intros Hne. unfold after. now rewrite paginate_page. }
  assert (Hstop : data = [] ->
                  after = (Returns (Return repos),
                           sent (listing TOKEN endpoint page) w)).
  { intros He. unfold after. now rewrite paginate_empty_page. }
  assert (Hnext : data <> [] -> next_page_requested).
  { intros Hne. unfold next_page_requested. rewrite (Hgo Hne).
    destruct (paginate_first_request api TOKEN fuel endpoint (page + 1)
                (repos ++ matching data)%list
                (sent (listing TOKEN endpoint page) w)) as (rest & Hrest).
    exists rest. rewrite Hrest. simpl. now rewrite <- app_assoc. }
  split; [|split; [|split; [|split; [|split]]]]; auto.
  - intros Hl. apply Hnext. intros E. rewrite E in Hl. discriminate.
  - intros Hl. apply Hnext. intros E. rewrite E in Hl. simpl in Hl. lia.
  - split.
    + intros Hreq. destruct data as [|d data'] eqn:E; [reflexivity|].
      destruct Hnext as (rest & Hrest); [discriminate|].
      rewrite Hrest in Hreq. apply app_inv_head in Hreq. discriminate.
    + intros He. now rewrite (Hstop He).
Qed.

Lemma page_size_never_ends_pagination_big :
  (exists rest,
     requests (snd (paginate big_api "t" 3 (orgs_endpoint "big") 1 [] w0))
     = (requests w0
          ++ [listing "t" (orgs_endpoint "big") 1;
              listing "t" (orgs_endpoint "big") (1 + 1)]
          ++ rest)%list)
  /\ (exists rest,
     requests (snd (paginate big_api "t" 2 (orgs_endpoint "big") 2 [] w0))
     = (requests w0
          ++ [listing "t" (orgs_endpoint "big") 2;
              listing "t" (orgs_endpoint "big") (2 + 1)]
          ++ rest)%list).
Proof.
  split.
  - apply (proj1 (page_size_never_ends_pagination big_api "t"
                    (orgs_endpoint "big") 1 [] 1 w0 eq_refl)).
    reflexivity.
  - apply (proj1 (proj2 (page_size_never_ends_pagination big_api "t"
                           (orgs_endpoint "big") 2 [] 0 w0 eq_refl))).
    simpl. lia.
Defined.

(** ** The checker *)

Lemma check_workflow_run (api : request -> response) (ORG TOKEN repo : string)
    (w : world) :
  check_workflow api ORG TOKEN repo w
  = (Returns (status_code (api (contents ORG TOKEN repo)) =? 200),
     sent (contents ORG TOKEN repo) w).
Proof. reflexivity. Qed.

(** C2, as the code has it.  [check_workflow] sends one request and
    returns, without raising, whatever the status received: [true] when
    the status is 200 and [false] for every other status, the other 2xx
    statuses, 404 and 403 included. *)
Theorem check_workflow_true_iff_200 (api : request -> response)
    (ORG TOKEN repo : string) (w : world) :
  exists has,
    check_workflow api ORG TOKEN repo w
    = (Returns has, sent (contents ORG TOKEN repo) w)
    /\ (has = true <-> status_code (api (contents ORG TOKEN repo)) = 200).
Proof.
  exists (status_code (api (contents ORG TOKEN repo)) =? 200).
  split; [apply check_workflow_run | apply Z.eqb_eq].
Qed.

(** C2 as stated fails: 204 is in the 200 class, and the checker answers
    [false]. *)
Lemma check_workflow_204_is_false :
  status_code (status_api 204 (contents "acme" "t" "a")) = 204
  /\ 200 <= 204 < 300
  /\ fst (check_workflow (status_api 204) "acme" "t" "a" w0) = Returns false
  /\ fst (check_workflow (status_api 204) "acme" "t" "a" w0) <> Returns true.
Proof.
  split; [reflexivity|]. split; [lia|]. split; [reflexivity|].
  simpl. discriminate.
Qed.

(** C8.  The boolean [check_workflow] returns depends on nothing but the
    status the contents endpoint answers with: two invocations that
    receive the same status, in whatever worlds and whatever else the
    remote answers, return the same boolean; so do two invocations one
    after the other. *)
Theorem check_workflow_idempotent (api1 api2 : request -> response)
    (ORG TOKEN repo : string) (w1 w2 : world) :
  status_code (api1 (contents ORG TOKEN repo))
  = status_code (api2 (contents ORG TOKEN repo)) ->
  fst (check_workflow api1 ORG TOKEN repo w1)
  = fst (check_workflow api2 ORG TOKEN repo w2)
  /\ exists has,
       fst ((first <- check_workflow api1 ORG TOKEN repo ;;
             second <- check_workflow api2 ORG TOKEN repo ;;
             ret (first, second)) w1)
       = Returns (has, has).
Proof.
  intros H. split.
  - rewrite !check_workflow_run. simpl. now rewrite H.
  - exists (status_code (api2 (contents ORG TOKEN repo)) =? 200).
    unfold bind at 1. rewrite check_workflow_run.
    unfold bind. rewrite check_workflow_run.
    unfold ret. simpl. now rewrite H.
Qed.

Lemma check_workflow_idempotent_acme :
  fst (check_workflow acme_api "acme" "t" "a" w0)
  = fst (check_workflow (status_api 200) "acme" "t" "a"
           (sent (contents "acme" "t" "a") w0))
  /\ exists has,
       fst ((first <- check_workflow acme_api "acme" "t" "a" ;;
             second <- check_workflow (status_api 200) "acme" "t" "a" ;;
             ret (first, second)) w0)
       = Returns (has, has).
Proof.
  apply (check_workflow_idempotent acme_api (status_api 200) "acme" "t" "a").
  reflexivity.
Defined.

(** ** Errors *)

Lemma main_propagates (api : request -> response) (utcnow ORG TOKEN : string)
    (fuel : nat) (w w' : world) (e : exn) :
  list_js_repos api TOKEN fuel ORG w = (Raises e, w') ->
  main api utcnow ORG TOKEN fuel w = (Raises e, w').
Proof. intros H. unfold main, bind at 1. now rewrite H. Qed.

(** C3, as the code has it.  [check_workflow] raises on no status: it
    returns whether the status is 200.  In [list_js_repos], a response
    with a client or server error status (400..599) other than 404 raises
    [HTTPError]: the request that received it is the last one sent, the
    exception leaves [list_js_repos] and [main] uncaught, and the run ends
    there, with nothing printed, no repository checked and no file
    written. *)
Theorem http_error_aborts_enumeration (api : request -> response)
    (utcnow ORG TOKEN : string) :
  (forall repo w,
     check_workflow api ORG TOKEN repo w
     = (Returns (status_code (api (contents ORG TOKEN repo)) =? 200),
        sent (contents ORG TOKEN repo) w))
  /\ (forall fuel w o w' rs r,
        list_js_repos api TOKEN fuel ORG w = (o, w') ->
        requests w' = (requests w ++ rs)%list ->
        In r rs ->
        400 <= status_code (api r) < 600 ->
        status_code (api r) <> 404 ->
        o = Raises (HTTPError (status_code (api r)))
        /\ (exists init, rs = (init ++ [r])%list)
        /\ main api utcnow ORG TOKEN fuel w
           = (Raises (HTTPError (status_code (api r))), w')
        /\ stdout w' = stdout w
        /\ files w' = files w).
Proof.
  split; [intros; apply check_workflow_run|].
  intros fuel w o w' rs r Hrun Hreq Hin Hrange H404.
  destruct (list_js_repos_trace api TOKEN fuel ORG w) as (rs0 & Hw & Ha & _).
  rewrite Hrun in Hw, Ha. simpl in Hw, Ha. subst w'.
  simpl in Hreq. apply app_inv_head in Hreq. subst rs0.
  assert (Hfail : failed api r) by (split; assumption).
  assert (Hnot : ~ Forall (fun r => ~ failed api r) rs).
  { intros HF. rewrite Forall_forall in HF. exact (HF r Hin Hfail). }
  destruct o as [a|e|]; simpl in Ha; try contradiction.
  destruct Ha as (init & r0 & -> & Hinit & Hr0 & ->).
  assert (r = r0) as <-.
  { apply in_app_or in Hin. destruct Hin as [Hin|[Hin|[]]]; [|now symmetry].
    rewrite Forall_forall in Hinit. now destruct (Hinit r Hin). }
  split; [reflexivity|]. split; [now exists init|].
  split; [now apply main_propagates|]. split; reflexivity.
Qed.

Lemma http_error_aborts_enumeration_500 :
  list_js_repos (status_api 500) "t" 5 "acme" w0
  = (Raises (HTTPError 500), sent (listing "t" (orgs_endpoint "acme") 1) w0)
  /\ (exists init,
        [listing "t" (orgs_endpoint "acme") 1]
        = (init ++ [listing "t" (orgs_endpoint "acme") 1])%list)
  /\ main (status_api 500) "2024-01-01 00:00 UTC" "acme" "t" 5 w0
     = (Raises (HTTPError 500), sent (listing "t" (orgs_endpoint "acme") 1) w0)
  /\ stdout (sent (listing "t" (orgs_endpoint "acme") 1) w0) = stdout w0
  /\ files (sent (listing "t" (orgs_endpoint "acme") 1) w0) = files w0.
Proof.
  destruct (proj2 (http_error_aborts_enumeration (status_api 500)
                     "2024-01-01 00:00 UTC" "acme" "t")
              5%nat w0 (Raises (HTTPError 500))
              (sent (listing "t" (orgs_endpoint "acme") 1) w0)
              [listing "t" (orgs_endpoint "acme") 1]
              (listing "t" (orgs_endpoint "acme") 1)
              eq_refl eq_refl (or_introl eq_refl))
    as (_ & Hlast & Hmain & Hout & Hfiles).
  - simpl; lia.
  - simpl; discriminate.
  - split; [reflexivity|]. split; [exact Hlast|].
    split; [exact Hmain|]. split; [exact Hout | exact Hfiles].
Defined.

(** C3 as stated fails.  The checker receives a 500, a status that is
    neither 200 nor 404, and returns [false]: nothing is raised.  The
    enumerator receives a 202 with an empty array, which
    [raise_for_status] lets through, and returns. *)
Lemma check_workflow_500_returns :
  status_code (status_api 500 (contents "acme" "t" "a")) = 500
  /\ 500 <> 200 /\ 500 <> 404
  /\ check_workflow (status_api 500) "acme" "t" "a" w0
     = (Returns false, sent (contents "acme" "t" "a") w0)
  /\ (forall e,
        fst (check_workflow (status_api 500) "acme" "t" "a" w0) <> Raises e)
  /\ status_code (status_api 202 (listing "t" (orgs_endpoint "acme") 1)) = 202
  /\ 202 <> 200 /\ 202 <> 404
  /\ list_js_repos (status_api 202) "t" 5 "acme" w0
     = (Returns [], sent (listing "t" (orgs_endpoint "acme") 1) w0).
Proof.
  split; [reflexivity|]. split; [lia|]. split; [lia|]. split; [reflexivity|].
  split; [intros e; simpl; discriminate|].
  split; [reflexivity|]. split; [lia|]. split; [lia|]. reflexivity.
Qed.

(** ** Configuration *)

(** C9.  When the account argument ([sys.argv[1]]) or the GITHUB_TOKEN
    environment variable is missing, the program prints the usage line or
    the error line, exits with code 1, and has sent no request. *)
Theorem missing_configuration_exits (api : request -> response)
    (utcnow : string) (argv : list string) (getenv : string -> option string)
    (fuel : nat) (w : world) :
  nth_error argv 1 = None \/ getenv "GITHUB_TOKEN" = None ->
  exists msg,
    program api utcnow argv getenv fuel w
    = (Raises (SystemExit 1), printed msg w)
    /\ (msg = "Usage: python3 monitor_adoption.py <ORG_NAME>"
        \/ msg = "Error: set GITHUB_TOKEN env var with repo scope")
    /\ requests (printed msg w) = requests w
    /\ files (printed msg w) = files w.
Proof.
  intros H. unfold program.
  destruct (truthy (if (1 <? length argv)%nat then nth_error argv 1 else None))
    eqn:Horg; cbn [negb].
  - destruct (truthy (getenv "GITHUB_TOKEN")) eqn:Htok; cbn [negb].
    + exfalso. destruct H as [H|H].
      * rewrite H in Horg. destruct (1 <? length argv)%nat; discriminate.
      * rewrite H in Htok. discriminate.
    + exists "Error: set GITHUB_TOKEN env var with repo scope".
      repeat split. now right.
  - exists "Usage: python3 monitor_adoption.py <ORG_NAME>".
    repeat split. now left.
Qed.

Lemma missing_configuration_exits_no_token :
  exists msg,
    program acme_api "2024-01-01 00:00 UTC" ["monitor_adoption.py"; "acme"]
            (fun _ => None) 5 w0
    = (Raises (SystemExit 1), printed msg w0)
    /\ (msg = "Usage: python3 monitor_adoption.py <ORG_NAME>"
        \/ msg = "Error: set GITHUB_TOKEN env var with repo scope")
    /\ requests (printed msg w0) = requests w0
    /\ files (printed msg w0) = files w0.
Proof.
  apply (missing_configuration_exits acme_api "2024-01-01 00:00 UTC"
           ["monitor_adoption.py"; "acme"] (fun _ => None) 5 w0).
  right. reflexivity.
Defined.

(** ** Beyond the claims: the shape of every run *)

Lemma string_app_assoc (a b c : string) : (a ++ b) ++ c = a ++ b ++ c.
Proof. induction a as [|x a IH]; simpl; [reflexivity | now rewrite IH]. Qed.

Lemma string_app_nil_r (a : string) : a ++ EmptyString = a.
Proof. induction a as [|x a IH]; simpl; [reflexivity | now rewrite IH]. Qed.

Lemma rows_fold (results : list (string * bool)) (html : string) :
  fold_left (fun html row => html ++ html_row row) results html
  = html ++ html_rows results.
Proof.
  revert html. induction results as [|row results IH]; intros html; simpl.
  - now rewrite string_app_nil_r.
  - now rewrite IH, string_app_assoc.
Qed.

(** The checking loop, whatever the remote answers. *)
Lemma check_all_run (api : request -> response) (ORG TOKEN : string)
    (repos : list string) :
  forall results w,
    check_all api ORG TOKEN repos results w
    = (Returns (results ++ checked api ORG TOKEN repos)%list,
       mkWorld (requests w ++ map (contents ORG TOKEN) repos)
               (stdout w ++ map check_line (checked api ORG TOKEN repos))
               (files w)).
Proof.
  induction repos as [|repo repos IH]; intros results w.
  - simpl. unfold ret. rewrite !app_nil_r. now destruct w.
  - cbn [check_all]. unfold bind at 1. rewrite check_workflow_run.
    unfold bind, print. rewrite IH. simpl.
    now rewrite <- !app_assoc.
Qed.

(** [main] after an enumeration that returned. *)
Lemma main_run (api : request -> response) (utcnow ORG TOKEN : string)
    (fuel : nat) (w w1 : world) (repos : list string) :
  list_js_repos api TOKEN fuel ORG w = (Returns repos, w1) ->
  main api utcnow ORG TOKEN fuel w
  = (Returns tt, reported api utcnow ORG TOKEN repos w1).
Proof.
  intros H. unfold main. unfold bind at 1. rewrite H.
  unfold bind at 1. rewrite check_all_run.
  unfold bind, write_file, print, written, printed, reported. simpl.
  rewrite rows_fold, string_app_assoc, <- app_assoc.
  reflexivity.
Qed.

(** [main] after an enumeration that did not return. *)
Lemma main_stops (api : request -> response) (utcnow ORG TOKEN : string)
    (fuel : nat) (w : world) :
  (forall repos, fst (list_js_repos api TOKEN fuel ORG w) <> Returns repos) ->
  fst (main api utcnow ORG TOKEN fuel w) <> Returns tt
  /\ snd (main api utcnow ORG TOKEN fuel w)
     = snd (list_js_repos api TOKEN fuel ORG w)
  /\ (forall e, fst (main api utcnow ORG TOKEN fuel w) = Raises e <->
                fst (list_js_repos api TOKEN fuel ORG w) = Raises e).
Proof.
  intros H.
  destruct (list_js_repos api TOKEN fuel ORG w) as [[repos|e|] w1] eqn:E;
    simpl in *.
  - now contradiction (H repos).
  - rewrite (main_propagates _ _ _ _ _ _ _ _ E). simpl.
    split; [discriminate|]. split; [reflexivity|].
    intros e'. split; intros [= ->]; reflexivity.
  - assert (Hm : main api utcnow ORG TOKEN fuel w = (OutOfFuel, w1)).
    { unfold main, bind at 1. now rewrite E. }
    rewrite Hm. simpl.
    split; [discriminate|]. split; [reflexivity|].
    intros e'. split; discriminate.
Qed.

Lemma page_requests_one (TOKEN endpoint : string) (page : Z) :
  page_requests TOKEN endpoint page 1 = [listing TOKEN endpoint page].
Proof. now rewrite page_requests_S. Qed.

(** The requests of one pagination loop are consecutive pages. *)
Lemma paginate_shape (api : request -> response) (TOKEN : string)
    (fuel : nat) :
  forall endpoint page repos w,
  exists n,
    (n <= fuel)%nat
    /\ snd (paginate api TOKEN fuel endpoint page repos w)
       = sent_all (page_requests TOKEN endpoint page n) w
    /\ (forall repos',
          fst (paginate api TOKEN fuel endpoint page repos w)
          = Returns (Break repos') ->
          (0 < n)%nat
          /\ not_found api TOKEN endpoint (page + Z.of_nat n - 1)).
Proof.
  induction fuel as [|fuel IH]; intros endpoint page repos w.
  - exists 0%nat. simpl. rewrite sent_all_nil.
    split; [lia|]. split; [reflexivity|discriminate].
  - rewrite paginate_step. cbn zeta.
    destruct (Z.eqb_spec (status_code (api (listing TOKEN endpoint page))) 404)
      as [E|E].
    { exists 1%nat. rewrite page_requests_one. split; [lia|]. split; [reflexivity|].
      intros repos' _. split; [lia|]. unfold not_found.
      now replace (page + Z.of_nat 1 - 1) with page by lia. }
    destruct ((400 <=? status_code (api (listing TOKEN endpoint page)))
              && (status_code (api (listing TOKEN endpoint page)) <? 600)).
    { exists 1%nat. rewrite page_requests_one. split; [lia|]. split; [reflexivity|discriminate]. }
    destruct (json (api (listing TOKEN endpoint page))) as [|d data].
    { exists 1%nat. rewrite page_requests_one. split; [lia|]. split; [reflexivity|discriminate]. }
    destruct (IH endpoint (page + 1) (collect repos (d :: data))
                (sent (listing TOKEN endpoint page) w)) as (n & Hn & Hw & Hb).
    exists (S n). split; [lia|]. split.
    + now rewrite Hw, sent_all_sent, <- page_requests_S.
    + intros repos' Hret. destruct (Hb repos' Hret) as [Hpos H404].
      split; [lia|]. unfold not_found in *.
      now replace (page + Z.of_nat (S n) - 1)
        with (page + 1 + Z.of_nat n - 1) by lia.
Qed.

(** The requests of one enumeration: pages of the organization listing,
    then, after a 404 there, pages of the user listing. *)
Lemma list_js_repos_shape (api : request -> response) (TOKEN : string)
    (fuel : nat) (org : string) (w : world) :
  exists n m,
    (n <= fuel)%nat /\ (m <= fuel)%nat
    /\ snd (list_js_repos api TOKEN fuel org w)
       = sent_all (page_requests TOKEN (orgs_endpoint org) 1 n
                     ++ page_requests TOKEN (users_endpoint org) 1 m) w
    /\ ((0 < m)%nat ->
        (0 < n)%nat /\ not_found api TOKEN (orgs_endpoint org) (Z.of_nat n)).
Proof.
  rewrite list_js_repos_unfold.
  destruct (paginate_shape api TOKEN fuel (orgs_endpoint org) 1 [] w)
    as (n & Hn & Hw & Hb).
  destruct (paginate api TOKEN fuel (orgs_endpoint org) 1 [] w)
    as [[[r|r]|e|] w1]; cbn [fst snd] in Hw, Hb.
  - destruct (Hb r eq_refl) as [Hpos H404].
    replace (1 + Z.of_nat n - 1) with (Z.of_nat n) in H404 by lia.
    destruct (paginate_shape api TOKEN fuel (users_endpoint org) 1 r w1)
      as (m & Hm & Hw2 & _).
    exists n, m. split; [assumption|]. split; [assumption|]. split.
    + destruct (paginate api TOKEN fuel (users_endpoint org) 1 r w1)
        as [[[r'|r']|e|] w2]; cbn [fst snd] in Hw2 |- *;
        now rewrite Hw2, Hw, sent_all_app.
    + intros _. now split.
  - exists n, 0%nat. simpl. rewrite app_nil_r.
    split; [assumption|]. split; [lia|]. split; [assumption|lia].
  - exists n, 0%nat. simpl. rewrite app_nil_r.
    split; [assumption|]. split; [lia|]. split; [assumption|lia].
  - exists n, 0%nat. simpl. rewrite app_nil_r.
    split; [assumption|]. split; [lia|]. split; [assumption|lia].
Qed.





(** ** Beyond the claims: the enumerator *)

(** X1.  Whatever the remote answers and however the run ends, the
    requests of [list_js_repos] are pages 1, 2, ..., n of the organization
    listing followed by pages 1, 2, ..., m of the user listing; the user
    listing is only asked after the last organization request was answered
    404.  Nothing is printed and no file is written. *)
Theorem pages_requested_in_order (api : request -> response) (TOKEN : string)
    (fuel : nat) (org : string) (w : world) :
  exists n m,
    requests (snd (list_js_repos api TOKEN fuel org w))
    = (requests w
         ++ page_requests TOKEN (orgs_endpoint org) 1 n
         ++ page_requests TOKEN (users_endpoint org) 1 m)%list
    /\ stdout (snd (list_js_repos api TOKEN fuel org w)) = stdout w
    /\ files (snd (list_js_repos api TOKEN fuel org w)) = files w
    /\ ((0 < m)%nat ->
        (0 < n)%nat
        /\ status_code (api (listing TOKEN (orgs_endpoint org) (Z.of_nat n)))
           = 404).
Proof.
  destruct (list_js_repos_shape api TOKEN fuel org w)
    as (n & m & _ & _ & Hw & H404).
  exists n, m. rewrite Hw. repeat split; try reflexivity; now apply H404.
Qed.

(** X2.  The loop has no page limit: on a remote whose organization
    listing answers every page with status 200 and content,
    [list_js_repos] never returns; under any bound [fuel] it is still
    running after [fuel] requests, pages 1 to [fuel]. *)
Theorem endless_pages_never_return (api : request -> response)
    (TOKEN org : string) (fuel : nat) (w : world) :
  (forall page,
     1 <= page ->
     status_code (api (listing TOKEN (orgs_endpoint org) page)) = 200
     /\ json (api (listing TOKEN (orgs_endpoint org) page)) <> []) ->
  list_js_repos api TOKEN fuel org w
  = (OutOfFuel,
     sent_all (page_requests TOKEN (orgs_endpoint org) 1 fuel) w).
Proof.
  intros H.
  assert (Hloop : forall n page repos w',
             1 <= page ->
             paginate api TOKEN n (orgs_endpoint org) page repos w'
             = (OutOfFuel,
                sent_all (page_requests TOKEN (orgs_endpoint org) page n) w')).
  { induction n as [|n IH]; intros page repos w' Hpage.
    - simpl. unfold out_of_fuel. now rewrite sent_all_nil.
    - destruct (H page Hpage) as [Hs Hj].
      rewrite (paginate_page api TOKEN _ _ _ _ _ Hs Hj).
      rewrite IH by lia.
      now rewrite sent_all_sent, <- page_requests_S. }
  rewrite list_js_repos_unfold, Hloop by lia. reflexivity.
Qed.

Lemma endless_pages_never_return_endless :
  list_js_repos endless_api "t" 4 "acme" w0
  = (OutOfFuel, sent_all (page_requests "t" (orgs_endpoint "acme") 1 4) w0).
Proof.
  apply (endless_pages_never_return endless_api "t" "acme" 4 w0).
  intros page _. split; [reflexivity | discriminate].
Defined.

(** ** Beyond the claims: the report *)

(** X3.  In a run of [main] that returns, the enumeration returned some
    names [repos], and [main] has sent one contents request per name, in
    order, printed one line per name with the mark of its check, written
    the dashboard once (the head with the adoption ratio, one table row
    per name in enumeration order, the foot) and printed the closing
    line.  The adopted count is the number of names whose contents request
    was answered 200; it never exceeds the total, the number of names. *)
Theorem returned_main_has_reported (api : request -> response)
    (utcnow ORG TOKEN : string) (fuel : nat) (w : world) :
  fst (main api utcnow ORG TOKEN fuel w) = Returns tt ->
  exists repos w1,
    list_js_repos api TOKEN fuel ORG w = (Returns repos, w1)
    /\ snd (main api utcnow ORG TOKEN fuel w)
       = reported api utcnow ORG TOKEN repos w1
    /\ map fst (checked api ORG TOKEN repos) = repos
    /\ (forall repo has,
          In (repo, has) (checked api ORG TOKEN repos) ->
          (has = true <-> status_code (api (contents ORG TOKEN repo)) = 200))
    /\ (length (filter snd (checked api ORG TOKEN repos)) <= length repos)%nat.
Proof.
  intros Hret.
  destruct (list_js_repos api TOKEN fuel ORG w) as [[repos|e|] w1] eqn:E.
  - exists repos, w1. split; [reflexivity|].
    rewrite (main_run _ utcnow _ _ _ _ _ _ E). split; [reflexivity|].
    split; [|split].
    + unfold checked. rewrite map_map. simpl. apply map_id.
    + intros repo has Hin. unfold checked in Hin.
      apply in_map_iff in Hin. destruct Hin as (x & [= -> <-] & _).
      unfold has_workflow. apply Z.eqb_eq.
    + rewrite <- (length_map
                    (fun repo => (repo, has_workflow api ORG TOKEN repo)) repos).
      apply filter_length_le.
  - exfalso. destruct (main_stops api utcnow ORG TOKEN fuel w) as (Hn & _).
    { rewrite E. discriminate. }
    contradiction.
  - exfalso. destruct (main_stops api utcnow ORG TOKEN fuel w) as (Hn & _).
    { rewrite E. discriminate. }
    contradiction.
Qed.

Lemma returned_main_has_reported_acme :
  exists repos w1,
    list_js_repos acme_api "t" 5 "acme" w0 = (Returns repos, w1)
    /\ snd (main acme_api "2024-01-01 00:00 UTC" "acme" "t" 5 w0)
       = reported acme_api "2024-01-01 00:00 UTC" "acme" "t" repos w1
    /\ map fst (checked acme_api "acme" "t" repos) = repos
    /\ (forall repo has,
          In (repo, has) (checked acme_api "acme" "t" repos) ->
          (has = true <-> status_code (acme_api (contents "acme" "t" repo)) = 200))
    /\ (length (filter snd (checked acme_api "acme" "t" repos)) <= length repos)%nat.
Proof.
  apply (returned_main_has_reported acme_api "2024-01-01 00:00 UTC" "acme" "t"
           5 w0).
  reflexivity.
Defined.

(** X4.  When the enumeration does not return (it raises, or its loop
    does not end), [main] does not return either: it sends no request
    beyond those of the enumeration, so that no repository is checked,
    prints nothing and writes no file. *)
Theorem no_report_without_enumeration (api : request -> response)
    (utcnow ORG TOKEN : string) (fuel : nat) (w : world) :
  (forall repos, fst (list_js_repos api TOKEN fuel ORG w) <> Returns repos) ->
  fst (main api utcnow ORG TOKEN fuel w) <> Returns tt
  /\ requests (snd (main api utcnow ORG TOKEN fuel w))
     = requests (snd (list_js_repos api TOKEN fuel ORG w))
  /\ stdout (snd (main api utcnow ORG TOKEN fuel w)) = stdout w
  /\ files (snd (main api utcnow ORG TOKEN fuel w)) = files w.
Proof.
  intros H.
  destruct (main_stops api utcnow ORG TOKEN fuel w H) as (Hn & Hs & _).
  destruct (list_js_repos_shape api TOKEN fuel ORG w)
    as (n & m & _ & _ & Hw & _).
  rewrite Hs, Hw. now repeat split.
Qed.

Lemma no_report_without_enumeration_endless :
  fst (main endless_api "2024-01-01 00:00 UTC" "acme" "t" 4 w0) <> Returns tt
  /\ requests (snd (main endless_api "2024-01-01 00:00 UTC" "acme" "t" 4 w0))
     = requests (snd (list_js_repos endless_api "t" 4 "acme" w0))
  /\ stdout (snd (main endless_api "2024-01-01 00:00 UTC" "acme" "t" 4 w0))
     = stdout w0
  /\ files (snd (main endless_api "2024-01-01 00:00 UTC" "acme" "t" 4 w0))
     = files w0.
Proof.
  apply (no_report_without_enumeration endless_api "2024-01-01 00:00 UTC"
           "acme" "t" 4 w0).
  intros repos. simpl. discriminate.
Defined.



(** ** Beyond the claims: the configuration block and the program *)

(** X6.  An account argument that is missing or the empty string makes
    the program print the usage line and exit with code 1, whatever the
    environment holds: the token error is never printed in its place and
    no request is sent. *)
Theorem missing_or_empty_account_prints_usage (api : request -> response)
    (utcnow : string) (argv : list string) (getenv : string -> option string)
    (fuel : nat) (w : world) :
  nth_error argv 1 = None \/ nth_error argv 1 = Some EmptyString ->
  program api utcnow argv getenv fuel w
  = (Raises (SystemExit 1),
     printed "Usage: python3 monitor_adoption.py <ORG_NAME>" w).
Proof.
  intros H. unfold program.
  assert (Hfalsy : truthy (if (1 <? length argv)%nat
                           then nth_error argv 1 else None) = false).
  { destruct (1 <? length argv)%nat; [|reflexivity].
    destruct H as [-> | ->]; reflexivity. }
  rewrite Hfalsy. reflexivity.
Qed.

Lemma missing_or_empty_account_prints_usage_empty :
  program acme_api "2024-01-01 00:00 UTC"
          ["monitor_adoption.py"; EmptyString] (fun _ => Some "t") 5 w0
  = (Raises (SystemExit 1),
     printed "Usage: python3 monitor_adoption.py <ORG_NAME>" w0).
Proof.
  apply (missing_or_empty_account_prints_usage acme_api
           "2024-01-01 00:00 UTC" ["monitor_adoption.py"; EmptyString]
           (fun _ => Some "t") 5 w0).
  right. reflexivity.
Defined.

Lemma configured_account (argv : list string) (org : string) :
  nth_error argv 1 = Some org ->
  org <> EmptyString ->
  truthy (if (1 <? length argv)%nat then nth_error argv 1 else None) = true.
Proof.
  intros H Hne.
  assert (Hlen : (1 < length argv)%nat).
  { apply nth_error_Some. rewrite H. discriminate. }
  apply Nat.ltb_lt in Hlen. rewrite Hlen, H. simpl.
  apply negb_true_iff, String.eqb_neq, Hne.
Qed.

(** X7.  With an account given, a GITHUB_TOKEN that is unset or set to
    the empty string makes the program print the token error line and
    exit with code 1 before any request. *)
Theorem missing_or_empty_token_prints_error (api : request -> response)
    (utcnow : string) (argv : list string) (getenv : string -> option string)
    (fuel : nat) (w : world) (org : string) :
  nth_error argv 1 = Some org ->
  org <> EmptyString ->
  getenv "GITHUB_TOKEN" = None \/ getenv "GITHUB_TOKEN" = Some EmptyString ->
  program api utcnow argv getenv fuel w
  = (Raises (SystemExit 1),
     printed "Error: set GITHUB_TOKEN env var with repo scope" w).
Proof.
  intros Horg Hne Htok. unfold program.
  rewrite (configured_account argv org Horg Hne). cbn [negb].
  destruct Htok as [-> | ->]; reflexivity.
Qed.

Lemma missing_or_empty_token_prints_error_empty :
  program acme_api "2024-01-01 00:00 UTC" ["monitor_adoption.py"; "acme"]
          (fun _ => Some EmptyString) 5 w0
  = (Raises (SystemExit 1),
     printed "Error: set GITHUB_TOKEN env var with repo scope" w0).
Proof.
  apply (missing_or_empty_token_prints_error acme_api "2024-01-01 00:00 UTC"
           ["monitor_adoption.py"; "acme"] (fun _ => Some EmptyString) 5 w0
           "acme").
  - reflexivity.
  - discriminate.
  - right. reflexivity.
Defined.

(** What [program] does once the configuration block is passed. *)
Lemma program_cases (api : request -> response) (utcnow : string)
    (argv : list string) (getenv : string -> option string) (fuel : nat)
    (w : world) :
  (exists msg,
     program api utcnow argv getenv fuel w
     = (Raises (SystemExit 1), printed msg w))
  \/ (exists org tok,
        getenv "GITHUB_TOKEN" = Some tok /\ tok <> EmptyString
        /\ nth_error argv 1 = Some org /\ org <> EmptyString
        /\ program api utcnow argv getenv fuel w
           = main api utcnow org tok fuel w).
Proof.
  unfold program.
  destruct (truthy (if (1 <? length argv)%nat then nth_error argv 1 else None))
    eqn:Horg; cbn [negb]; [|left; eexists; reflexivity].
  destruct (truthy (getenv "GITHUB_TOKEN")) eqn:Htok; cbn [negb];
    [|left; eexists; reflexivity].
  right.
  destruct (1 <? length argv)%nat; [|discriminate].
  destruct (nth_error argv 1) as [org|]; [|discriminate].
  destruct (getenv "GITHUB_TOKEN") as [tok|]; [|discriminate].
  exists org, tok. simpl in Horg, Htok.
  apply negb_true_iff, String.eqb_neq in Horg.
  apply negb_true_iff, String.eqb_neq in Htok.
  repeat split; assumption.
Qed.


Lemma falsy_cases (v : option string) :
  truthy v = false -> v = None \/ v = Some EmptyString.
Proof.
  destruct v as [s|]; simpl; [|now left].
  intros H. apply negb_false_iff, String.eqb_eq in H. right. now subst.
Qed.

(** X9.  Where the two exceptions of the script come from.  A
    [SystemExit] that leaves the program has code 1 and comes from the
    configuration block: the account or the token is missing or empty,
    and nothing was sent or written.  An [HTTPError] that leaves the
    program carries the status of the last request sent, a status in
    400..599 that is not 404; nothing was printed or written. *)
Theorem raised_exit_or_http_error_origin (api : request -> response)
    (utcnow : string) (argv : list string) (getenv : string -> option string)
    (fuel : nat) (w : world) (e : exn) :
  fst (program api utcnow argv getenv fuel w) = Raises e ->
  match e with
  | SystemExit code =>
      code = 1
      /\ (nth_error argv 1 = None \/ nth_error argv 1 = Some EmptyString
          \/ getenv "GITHUB_TOKEN" = None
          \/ getenv "GITHUB_TOKEN" = Some EmptyString)
      /\ requests (snd (program api utcnow argv getenv fuel w)) = requests w
      /\ files (snd (program api utcnow argv getenv fuel w)) = files w
  | HTTPError s =>
      400 <= s < 600 /\ s <> 404
      /\ (exists init r,
            requests (snd (program api utcnow argv getenv fuel w))
            = (requests w ++ init ++ [r])%list
            /\ status_code (api r) = s)
      /\ stdout (snd (program api utcnow argv getenv fuel w)) = stdout w
      /\ files (snd (program api utcnow argv getenv fuel w)) = files w
  end.
Proof.
  unfold program.
  destruct (truthy (if (1 <? length argv)%nat then nth_error argv 1 else None))
    eqn:Horg; cbn [negb].
  2:{ intros [= <-]. split; [reflexivity|]. split; [|split; reflexivity].
      destruct (Nat.ltb_spec 1 (length argv)) as [Hlen|Hlen].
      - destruct (falsy_cases _ Horg) as [->| ->]; tauto.
      - left. now apply nth_error_None. }
  destruct (truthy (getenv "GITHUB_TOKEN")) eqn:Htok; cbn [negb].
  2:{ intros [= <-]. split; [reflexivity|]. split; [|split; reflexivity].
      destruct (falsy_cases _ Htok) as [->| ->]; tauto. }
  set (org := match (if (1 <? length argv)%nat then nth_error argv 1 else None)
              with Some s => s | None => EmptyString end).
  set (tok := match getenv "GITHUB_TOKEN"
              with Some s => s | None => EmptyString end).
  intros Hraise.
  destruct (list_js_repos api tok fuel org w) as [[repos|e'|] w1] eqn:E.
  - rewrite (main_run _ utcnow _ _ _ _ _ _ E) in Hraise. discriminate.
  - rewrite (main_propagates _ utcnow _ _ _ _ _ _ E) in Hraise |- *.
    cbn [fst snd] in *. injection Hraise as ->.
    destruct (list_js_repos_trace api tok fuel org w) as (rs & Hw & Ha & _).
    rewrite E in Hw, Ha. cbn [fst snd] in Hw, Ha. subst w1.
    destruct Ha as (init & r & -> & _ & [Hrange H404] & ->).
    split; [assumption|]. split; [assumption|].
    split; [|split; reflexivity].
    exists init, r. split; reflexivity.
  - destruct (main_stops api utcnow org tok fuel w) as (_ & _ & Hiff).
    { rewrite E. discriminate. }
    apply Hiff in Hraise. rewrite E in Hraise. discriminate.
Qed.

Lemma raised_exit_or_http_error_origin_500 :
  400 <= 500 < 600 /\ 500 <> 404
  /\ (exists init r,
        requests (snd (program (status_api 500) "2024-01-01 00:00 UTC"
                         ["monitor_adoption.py"; "acme"]
                         (fun _ => Some "t") 5 w0))
        = (requests w0 ++ init ++ [r])%list
        /\ status_code (status_api 500 r) = 500)
  /\ stdout (snd (program (status_api 500) "2024-01-01 00:00 UTC"
                    ["monitor_adoption.py"; "acme"]
                    (fun _ => Some "t") 5 w0)) = stdout w0
  /\ files (snd (program (status_api 500) "2024-01-01 00:00 UTC"
                   ["monitor_adoption.py"; "acme"]
                   (fun _ => Some "t") 5 w0)) = files w0.
Proof.
  apply (raised_exit_or_http_error_origin (status_api 500)
           "2024-01-01 00:00 UTC" ["monitor_adoption.py"; "acme"]
           (fun _ => Some "t") 5 w0 (HTTPError 500)).
  reflexivity.
Defined.

(** X10.  End to end: a run of the program that returns was configured
    with a non-empty account argument [org] and a non-empty GITHUB_TOKEN
    [tok]; it enumerated [org] with the credential [tok], checked each
    name under the same account and wrote the dashboard titled with
    it. *)
Theorem returned_program_was_configured (api : request -> response)
    (utcnow : string) (argv : list string) (getenv : string -> option string)
    (fuel : nat) (w : world) :
  fst (program api utcnow argv getenv fuel w) = Returns tt ->
  exists org tok repos w1,
    nth_error argv 1 = Some org /\ org <> EmptyString
    /\ getenv "GITHUB_TOKEN" = Some tok /\ tok <> EmptyString
    /\ list_js_repos api tok fuel org w = (Returns repos, w1)
    /\ snd (program api utcnow argv getenv fuel w)
       = reported api utcnow org tok repos w1.
Proof.
  destruct (program_cases api utcnow argv getenv fuel w)
    as [(msg & ->) | (org & tok & Htok & Hnt & Horg & Hne & ->)];
    [discriminate|].
  intros Hret.
  destruct (list_js_repos api tok fuel org w) as [[repos|e|] w1] eqn:E.
  - exists org, tok, repos, w1.
    rewrite (main_run _ utcnow _ _ _ _ _ _ E). now repeat split.
  - exfalso. destruct (main_stops api utcnow org tok fuel w) as (Hn & _).
    { rewrite E. discriminate. }
    contradiction.
  - exfalso. destruct (main_stops api utcnow org tok fuel w) as (Hn & _).
    { rewrite E. discriminate. }
    contradiction.
Qed.

Lemma returned_program_was_configured_acme :
  exists org tok repos w1,
    nth_error ["monitor_adoption.py"; "acme"] 1 = Some org
    /\ org <> EmptyString
    /\ Some "t" = Some tok /\ tok <> EmptyString
    /\ list_js_repos acme_api tok 5 org w0 = (Returns repos, w1)
    /\ snd (program acme_api "2024-01-01 00:00 UTC"
              ["monitor_adoption.py"; "acme"] (fun _ => Some "t") 5 w0)
       = reported acme_api "2024-01-01 00:00 UTC" org tok repos w1.
Proof.
  apply (returned_program_was_configured acme_api "2024-01-01 00:00 UTC"
           ["monitor_adoption.py"; "acme"] (fun _ => Some "t") 5 w0).
  reflexivity.
Defined.
